(** * Resume analyzer: skill matching, suggestions and report

    A shallow embedding of the class [ResumeAnalyzer] of
    [resume_analyzer.py] and the properties of its catalog loader, text
    extractor, skill matcher, suggestion engine and report formatter.  The
    function [main] below the class is no Python program as it stands (the
    call that opens on line 95 is never closed), so it has no embedding;
    what is embedded of it is the text of that call.

    Conventions of the embedding.
    - A Python [str] is a [string] holding the UTF-8 encoding of its code
      points.  Substring containment and lexicographic comparison of
      well-formed UTF-8 agree with the same operations on code points, so
      [str_in] and [String.le] stand for Python's [in] and [<=] on [str].
    - [str.lower] is an interpreter builtin: the embedding is parametric in
      it (class [StrLower]); [ascii_lower] is the instance used to run the
      model, and agrees with [str.lower] on ASCII text.
    - A Python [int] is a [Z].
    - The catalog ([Dict[str, List[str]]], iterated in insertion order) is
      an association list; the skill counts ([DefaultDict[str, int]], only
      looked up, tested for membership and sorted by a total key) are a
      [gmap string Z].
    - Files, the PDF library and the JSON parser are outside the program:
      their answers are read from a [world], and the calls made to them
      are recorded in a trace of [event]s. *)

From Stdlib Require Import Ascii String ZArith.
From stdpp Require Import gmap strings list sorting pretty.

Local Open Scope string_scope.
Local Open Scope list_scope.
Local Open Scope Z_scope.

(** ** Strings *)

(** The line feed, written [\n] in the source. *)
Definition nl : string := String (ascii_of_nat 10) "".

(** [s.startswith(p)]. *)
Fixpoint startswith (p s : string) : bool :=
  match p, s with
  | "", _ => true
  | String a p', String b s' => if decide (a = b) then startswith p' s' else false
  | String _ _, "" => false
  end.

(** [sub in s] for two [str]: [sub] occurs in [s] as a contiguous block. *)
Fixpoint str_in (sub s : string) : bool :=
  startswith sub s ||
  match s with
  | "" => false
  | String _ s' => str_in sub s'
  end.

(** [sep.join(l)]. *)
Fixpoint join (sep : string) (l : list string) : string :=
  match l with
  | [] => ""
  | x :: l' =>
    match l' with
    | [] => x
    | _ :: _ => x +:+ sep +:+ join sep l'
    end
  end.

(** [str.lower].  The laws are the two facts about it that the properties
    below rest on: lowering never empties a string, and a lowered string
    that occurs in a text still occurs in the lowered text. *)
Class StrLower := lower : string → string.

Class StrLowerLaws `{StrLower} : Prop := {
  lower_empty_inv s : lower s = "" → s = "";
  lower_occurs u t : str_in (lower u) t = true → str_in (lower u) (lower t) = true
}.

Definition ascii_lower_char (c : ascii) : ascii :=
  let n := N_of_ascii c in
  if ((65 <=? n) && (n <=? 90))%N then ascii_of_N (n + 32) else c.

Fixpoint ascii_lower (s : string) : string :=
  match s with
  | "" => ""
  | String c s' => String (ascii_lower_char c) (ascii_lower s')
  end.

(** ** Catalog and skill counts *)

Abbreviation catalog := (list (string * list string)).
Abbreviation counts := (gmap string Z).

Definition SKILLS_DB_FILE : string := "skills_db.json".

Definition DEFAULT_SKILLS : catalog :=
  [ ("Programming", ["Python"; "Java"; "C++"; "JavaScript"; "SQL"; "R"; "Go"]);
    ("Data", ["SQL"; "NoSQL"; "Spark"; "Pandas"; "Tableau"; "PowerBI"; "Excel"]);
    ("ML/AI", ["Machine Learning"; "Deep Learning"; "TensorFlow"; "PyTorch"; "NLP"]);
    ("DevOps", ["Docker"; "Kubernetes"; "AWS"; "Azure"; "CI/CD"; "Terraform"]);
    ("Soft Skills", ["Leadership"; "Communication"; "Teamwork"; "Problem Solving"]) ].

(** [s in skill_counts]: key membership, which does not create the key. *)
Definition has_key (skill_counts : counts) (s : string) : bool :=
  bool_decide (is_Some (skill_counts !! s)).

(** [skill_counts[skill] += 1] on a [defaultdict(int)]. *)
Definition increment (skill : string) (skill_counts : counts) : counts :=
  <[skill := default 0 (skill_counts !! skill) + 1]> skill_counts.

(** ** The skill matcher *)

Section matcher.
Context `{StrLower}.

(** One turn of the inner loop of [analyze_skills]. *)
Definition analyze_skill (text : string) (skill_counts : counts) (skill : string) : counts :=
  if str_in (lower skill) text then increment skill skill_counts else skill_counts.

(** The inner loop, over the skills of one category. *)
Definition analyze_category (text : string) (skill_counts : counts)
    (entry : string * list string) : counts :=
  foldl (analyze_skill text) skill_counts entry.2.

Definition analyze_skills (skills_db : catalog) (text : string) : counts :=
  foldl (analyze_category text) ∅ skills_db.
End matcher.

(** ** The suggestion engine *)

(** The body of the loop of [suggest_improvements]: what one category
    appends to [suggestions]. *)
Definition suggest_category (skill_counts : counts) (entry : string * list string)
    : list string :=
  let '(category, skills) := entry in
  let found_skills := filter (λ s, has_key skill_counts s = true) skills in
  if decide (found_skills = []) then
    ["⚠️ Missing " +:+ category +:+ " skills. Consider adding: "
       +:+ join ", " (take 3 skills) +:+ "..."]
  else if decide (length found_skills < 2)%nat then
    ["ℹ️ Few " +:+ category +:+ " skills. Could add: "
       +:+ join ", " (take 2 (filter (λ s, s ∉ found_skills) skills))]
  else [].

Definition suggest_improvements (skills_db : catalog) (skill_counts : counts)
    : list string :=
  foldl (λ suggestions entry, (suggestions ++ suggest_category skill_counts entry)%list)
        [] skills_db.

(** ** The report formatter *)

(** The sort key [(-x[1], x[0])] and the order of Python tuples on it. *)
Definition report_key (x : string * Z) : Z * string := (- x.2, x.1).

Definition key_le (k1 k2 : Z * string) : Prop :=
  k1.1 < k2.1 ∨ (k1.1 = k2.1 ∧ String.le k1.2 k2.2).

Definition item_le (x y : string * Z) : Prop := key_le (report_key x) (report_key y).

Global Instance item_le_dec : RelDecision item_le.
Proof. intros x y. unfold item_le, key_le. apply _. Defined.

(** [sorted(skill_counts.items(), key=lambda x: (-x[1], x[0]))]. *)
Definition sorted_items (skill_counts : counts) : list (string * Z) :=
  merge_sort item_le (map_to_list skill_counts).

(** The f-string of one skill line. *)
Definition skill_line (item : string * Z) : string :=
  let '(skill, count) := item in
  "• " +:+ skill +:+ ": " +:+ pretty count +:+ " mention"
    +:+ (if decide (count > 1) then "s" else "").

(** The list [report] at the end of [generate_report]. *)
Definition report_lines (skill_counts : counts) (suggestions : list string)
    : list string :=
  let report := [nl +:+ "=== SKILL ANALYSIS ==="] in
  let report :=
    if decide (skill_counts = ∅) then
      (report ++ ["No skills detected from the database"])%list
    else
      (report ++ (skill_line <$> sorted_items skill_counts))%list in
  if decide (suggestions = []) then
    (report ++ [nl +:+ "✅ Good job! Your resume covers diverse skill categories."])%list
  else
    ((report ++ [nl +:+ "=== SUGGESTIONS ==="]) ++ suggestions)%list.

Definition generate_report (skill_counts : counts) (suggestions : list string)
    : string :=
  join nl (report_lines skill_counts suggestions).

(** ** Exceptions and dynamically typed values *)

Inductive exn_class :=
| FileNotFoundError | JSONDecodeError | AttributeError | TypeError | KeyError
| OtherError.

(** An exception: its class and [str(e)]. *)
Record exn := Exn { exn_cls : exn_class; exn_str : string }.

Definition result (A : Type) : Type := exn + A.

Definition ok {A} (a : A) : result A := inr a.
Definition fail {A} (e : exn) : result A := inl e.

(** Sequencing of computations that can raise. *)
Class Bind (F : Type → Type) := bind : ∀ {A B}, F A → (A → F B) → F B.

Notation "x <- m ;; k" := (bind m (λ x, k))
  (at level 100, m at next level, right associativity).

Global Instance result_bind : Bind result := λ A B m k,
  match m with
  | inl e => inl e
  | inr a => k a
  end.

(** What [json.load] can return.  Of a [float] the program can only see
    whether it is zero. *)
#[warnings="-register-all"]
Inductive value :=
| VNone
| VBool (b : bool)
| VInt (n : Z)
| VFloat (zero : bool)
| VStr (s : string)
| VList (l : list value)
| VDict (d : list (string * value)).

Definition type_name (v : value) : string :=
  match v with
  | VNone => "NoneType"
  | VBool _ => "bool"
  | VInt _ => "int"
  | VFloat _ => "float"
  | VStr _ => "str"
  | VList _ => "list"
  | VDict _ => "dict"
  end.

(** Truth value of an object in [x if x else y]. *)
Definition truthy (v : value) : bool :=
  match v with
  | VNone => false
  | VBool b => b
  | VInt n => negb (n =? 0)
  | VFloat zero => negb zero
  | VStr s => negb (String.eqb s "")
  | VList l => negb (bool_decide (l = []))
  | VDict d => negb (bool_decide (d = []))
  end.

Definition no_attribute (v : value) (attr : string) : exn :=
  Exn AttributeError
      ("'" +:+ type_name v +:+ "' object has no attribute '" +:+ attr +:+ "'").

Definition is_continuation (c : ascii) : bool :=
  let n := N_of_ascii c in ((128 <=? n) && (n <? 192))%N.

(** The characters of a [str]: each lead byte with the continuation bytes
    that follow it. *)
Fixpoint code_points (s : string) : list string :=
  match s with
  | "" => []
  | String a s' =>
    match s' with
    | "" => [String a ""]
    | String b _ =>
      if is_continuation b then
        match code_points s' with
        | g :: gs => String a g :: gs
        | [] => [String a ""]
        end
      else String a "" :: code_points s'
    end
  end.

(** [v.items()]. *)
Definition items (v : value) : result (list (string * value)) :=
  match v with
  | VDict d => ok d
  | _ => fail (no_attribute v "items")
  end.

(** The elements [for x in v] runs through. *)
Definition iterate (v : value) : result (list value) :=
  match v with
  | VList l => ok l
  | VStr s => ok (VStr <$> code_points s)
  | VDict d => ok ((λ kv, VStr kv.1) <$> d)
  | _ => fail (Exn TypeError ("'" +:+ type_name v +:+ "' object is not iterable"))
  end.

Definition value_of_catalog (c : catalog) : value :=
  VDict ((λ entry, (entry.1, VList (VStr <$> entry.2))) <$> c).

(** A left fold whose step can raise. *)
Fixpoint foldlM {A B} (f : A → B → result A) (a : A) (l : list B) : result A :=
  match l with
  | [] => ok a
  | b :: l' => a' <- f a b;; foldlM f a' l'
  end.

(** ** The world and the trace *)

Record world := World {
  (** [os.path.exists(path)] *)
  path_exists : string → bool;
  (** [json.load(open(path))]: the parsed document, or the exception of
      [open] or of the parser *)
  json_document : string → result value;
  (** the texts [page.get_text()] of the pages of [fitz.open(path)], or the
      exception of the PDF library *)
  pdf_pages : string → result (list string);
  (** the exception of [d[:3]] on a [dict] (a [TypeError] up to CPython
      3.11, a [KeyError] from 3.12) *)
  dict_slice_error : exn
}.

Inductive event :=
| EvExists (path : string)
| EvJsonLoad (path : string)
| EvFitzOpen (path : string).

(** A computation: its result or exception, and the events up to there. *)
Definition M (A : Type) : Type := result A * list event.

Definition ret {A} (a : A) : M A := (inr a, []).

Global Instance M_bind : Bind M := λ A B m k,
  match m.1 with
  | inl e => (inl e, m.2)
  | inr a => ((k a).1, (m.2 ++ (k a).2)%list)
  end.

Definition raise {A} (e : exn) : M A := (inl e, []).
Definition lift {A} (r : result A) : M A := (r, []).
Definition emit (ev : event) : M unit := (inr (), [ev]).

Definition os_path_exists (w : world) (path : string) : M bool :=
  _ <- emit (EvExists path);; ret (path_exists w path).

Definition json_load_open (w : world) (path : string) : M value :=
  _ <- emit (EvJsonLoad path);; lift (json_document w path).

Definition fitz_open (w : world) (path : string) : M (list string) :=
  _ <- emit (EvFitzOpen path);; lift (pdf_pages w path).

(** ** The methods on whatever [skills_db] holds

    The constructor keeps what it is given, and [load_skills_db] returns
    [json.load]'s result, unchecked: the methods run on any [value], and
    raise where Python raises. *)

(** [skill.lower()]. *)
Definition lower_of `{StrLower} (skill : value) : result string :=
  match skill with
  | VStr s => ok (lower s)
  | _ => fail (no_attribute skill "lower")
  end.

(** The key [skill_counts[skill]] is filed under, for a [str] skill. *)
Definition str_of (skill : value) : string :=
  match skill with
  | VStr s => s
  | _ => ""
  end.

Definition analyze_skills_dyn `{StrLower} (skills_db : value) (text : string)
    : result counts :=
  entries <- items skills_db;;
  foldlM (λ skill_counts entry,
            skills <- iterate entry.2;;
            foldlM (λ skill_counts skill,
                      lowered <- lower_of skill;;
                      ok (if str_in lowered text
                            then increment (str_of skill) skill_counts
                            else skill_counts))
                   skill_counts skills)
         ∅ entries.

(** [s in skill_counts], which hashes [s]. *)
Definition in_counts (skill_counts : counts) (s : value) : result bool :=
  match s with
  | VStr x => ok (has_key skill_counts x)
  | VList _ | VDict _ =>
    fail (Exn TypeError ("unhashable type: '" +:+ type_name s +:+ "'"))
  | _ => ok false
  end.

(** [[s for s in skills if s in skill_counts]]; its elements are keys of
    [skill_counts], hence [str]. *)
Fixpoint found_in (skill_counts : counts) (skills : list value) : result (list string) :=
  match skills with
  | [] => ok []
  | s :: skills' =>
    present <- in_counts skill_counts s;;
    rest <- found_in skill_counts skills';;
    ok (if present then str_of s :: rest else rest)
  end.

(** [s not in found_skills], by [==] against the [str] elements. *)
Definition not_among (found_skills : list string) (s : value) : bool :=
  match s with
  | VStr x => bool_decide (x ∉ found_skills)
  | _ => true
  end.

(** [skills[:n]], as the sequence [join] then runs through. *)
Definition slice_to (w : world) (n : nat) (skills : value) : result (list value) :=
  match skills with
  | VList l => ok (take n l)
  | VStr s => ok (VStr <$> take n (code_points s))
  | VDict _ => fail (dict_slice_error w)
  | _ => fail (Exn TypeError ("'" +:+ type_name skills +:+ "' object is not subscriptable"))
  end.

(** [', '.join(xs)], which wants every item to be a [str]. *)
Fixpoint strs_from (i : nat) (xs : list value) : result (list string) :=
  match xs with
  | [] => ok []
  | VStr s :: xs' => rest <- strs_from (S i) xs';; ok (s :: rest)
  | x :: _ =>
    fail (Exn TypeError ("sequence item " +:+ pretty i +:+ ": expected str instance, "
                          +:+ type_name x +:+ " found"))
  end.

Definition join_dyn (sep : string) (xs : list value) : result string :=
  strs <- strs_from 0 xs;; ok (join sep strs).

Definition suggest_category_dyn (w : world) (skill_counts : counts)
    (entry : string * value) : result (list string) :=
  let '(category, skills) := entry in
  elements <- iterate skills;;
  found_skills <- found_in skill_counts elements;;
  if decide (found_skills = []) then
    examples <- slice_to w 3 skills;;
    listed <- join_dyn ", " examples;;
    ok ["⚠️ Missing " +:+ category +:+ " skills. Consider adding: " +:+ listed +:+ "..."]
  else if decide (length found_skills < 2)%nat then
    listed <- join_dyn ", " (take 2 (filter (λ s, not_among found_skills s = true) elements));;
    ok ["ℹ️ Few " +:+ category +:+ " skills. Could add: " +:+ listed]
  else ok [].

Definition suggest_improvements_dyn (w : world) (skills_db : value)
    (skill_counts : counts) : result (list string) :=
  entries <- items skills_db;;
  foldlM (λ suggestions entry,
            added <- suggest_category_dyn w skill_counts entry;;
            ok (suggestions ++ added)%list)
         [] entries.

(** ** Loading the catalog and extracting the text *)

(** [load_skills_db]. *)
Definition load_skills_db (w : world) : M value :=
  found <- os_path_exists w SKILLS_DB_FILE;;
  if found then json_load_open w SKILLS_DB_FILE
  else ret (value_of_catalog DEFAULT_SKILLS).

(** [ResumeAnalyzer.__init__]: the [skills_db] the new analyzer holds. *)
Definition init (w : world) (skills_db : value) : M value :=
  if truthy skills_db then ret skills_db else load_skills_db w.

(** [extract_text]. *)
Definition extract_text `{StrLower} (w : world) (pdf_path : string) : M string :=
  found <- os_path_exists w pdf_path;;
  if negb found then raise (Exn FileNotFoundError ("File not found: " +:+ pdf_path))
  else
    pages <- fitz_open w pdf_path;;
    ret (lower (foldl (λ text page, text +:+ page) "" pages)).

(** ** The entry point

    Lines 95 to 97 of the source, as they stand: the statement that builds
    the analyzer, up to where the next statement starts on line 98. *)
Definition analyzer_call : list string :=
  [ "        analyzer = ResumeAnalyzer(";
    "            json.load(open(args.skills)) if args.skills else ResumeAnalyzer()";
    "        " ].

(** How many characters of [s] are [c]. *)
Fixpoint count_char (c : ascii) (s : string) : Z :=
  match s with
  | "" => 0
  | String a s' => (if decide (a = c) then 1 else 0) + count_char c s'
  end.

(** The parentheses a text leaves open (it holds no string literal and no
    comment). *)
Definition open_parens (lines : list string) : Z :=
  let text := join nl lines in
  count_char "("%char text - count_char ")"%char text.

(** ** Notions the properties are stated with *)

(** Every skill entry of the catalog, category after category. *)
Definition all_skills (skills_db : catalog) : list string := concat skills_db.*2.

(** How many entries of [l] are the name [s]. *)
Definition occurrences (s : string) (l : list string) : nat :=
  length (filter (λ x, x = s) l).

(** How many times the catalog lists the name [s], over all categories. *)
Definition listings (skills_db : catalog) (s : string) : nat :=
  occurrences s (all_skills skills_db).

(** [s] occurs in [text] when letter case is ignored. *)
Definition occurs_caseless `{StrLower} (s text : string) : bool :=
  str_in (lower s) (lower text).

(** A count raised [k] times, starting from what the mapping held. *)
Definition raised (held : option Z) (k : nat) : option Z :=
  if decide (k = 0%nat) then held else Some (default 0 held + Z.of_nat k).

(** The entries of [l] that the matcher counts for [s] in [text]. *)
Definition hits `{StrLower} (text s : string) (l : list string) : nat :=
  if str_in (lower s) text then occurrences s l else 0%nat.

(** The policy in the words of the specification: how many entries of the
    category are keys of the counts decides what is suggested. *)
Definition keyed (skill_counts : counts) (skills : list string) : nat :=
  length (filter (λ s, s ∈ dom skill_counts) skills).

Definition unkeyed (skill_counts : counts) (skills : list string) : list string :=
  filter (λ s, s ∉ dom skill_counts) skills.

(** The two messages in the words of the specification: each names the
    category and lists skill names, separated by a comma and a space. *)
Definition missing_suggestion (category : string) (examples : list string) : string :=
  "⚠️ Missing " +:+ (category +:+ " skills. Consider adding: ")
    +:+ (join ", " examples +:+ "...").

Definition sparse_suggestion (category : string) (candidates : list string) : string :=
  ("ℹ️ Few " +:+ category) +:+ (" skills. Could add: " +:+ join ", " candidates).

Definition category_policy (skill_counts : counts) (entry : string * list string)
    : list string :=
  match keyed skill_counts entry.2 with
  | 0%nat => [missing_suggestion entry.1 (take 3 entry.2)]
  | 1%nat => [sparse_suggestion entry.1 (take 2 (unkeyed skill_counts entry.2))]
  | _ => []
  end.

(** Descending count, then ascending name. *)
Definition report_order (x y : string * Z) : Prop :=
  y.2 < x.2 ∨ (x.2 = y.2 ∧ String.le x.1 y.1).

(** A skill line in the words of the specification. *)
Definition rendered (item : string * Z) : string :=
  "• " +:+ item.1 +:+ ": " +:+ pretty item.2
    +:+ (if bool_decide (1 < item.2) then " mentions" else " mention").

(** What follows the skill lines. *)
Definition closing_lines (suggestions : list string) : list string :=
  match suggestions with
  | [] => [nl +:+ "✅ Good job! Your resume covers diverse skill categories."]
  | _ :: _ => (nl +:+ "=== SUGGESTIONS ===") :: suggestions
  end.




(** The policy read off the text itself: the entries of a category whose
    lowered name occurs in the text decide what is suggested. *)
Definition text_policy `{StrLower} (text : string) (entry : string * list string)
    : list string :=
  match length (filter (λ s, str_in (lower s) text = true) entry.2) with
  | 0%nat => [missing_suggestion entry.1 (take 3 entry.2)]
  | 1%nat =>
    [sparse_suggestion entry.1
       (take 2 (filter (λ s, str_in (lower s) text = false) entry.2))]
  | _ => []
  end.

(** A world with no file at all. *)
Definition empty_world : world :=
  World (λ _, false)
        (λ _, inl (Exn FileNotFoundError "[Errno 2] No such file or directory"))
        (λ _, inl (Exn OtherError "no such file"))
        (Exn TypeError "unhashable type: 'slice'").


(** * Properties *)

(** ** Strings *)

Lemma startswith_nil_r p : startswith p "" = true → p = "".
Proof. by destruct p. Qed.

Lemma str_in_nil_r sub : str_in sub "" = true → sub = "".
Proof.
  simpl. rewrite orb_false_r. apply startswith_nil_r.
Qed.

Lemma append_cons x (a b : string) : String x a +:+ b = String x (a +:+ b).
Proof. done. Qed.

Lemma append_nil_r (a : string) : a +:+ "" = a.
Proof. induction a as [|x a IH]; [done|]. rewrite append_cons. by f_equal. Qed.

Lemma append_assoc (a b c : string) : (a +:+ b) +:+ c = a +:+ b +:+ c.
Proof.
  induction a as [|x a IH]; [done|]. rewrite !append_cons. by f_equal.
Qed.

Lemma startswith_iff p s : startswith p s = true ↔ ∃ r, s = p +:+ r.
Proof.
  revert s. induction p as [|a p IH]; intros s.
  - split; [by exists s|done].
  - destruct s as [|b s]; cbn [startswith].
    + split; [done|]. intros [r Hr]. by rewrite append_cons in Hr.
    + case_decide as Hab.
      * subst b. rewrite IH. split; intros [r Hr]; exists r.
        -- rewrite append_cons. by f_equal.
        -- rewrite append_cons in Hr. by injection Hr.
      * split; [done|]. intros [r Hr]. rewrite append_cons in Hr. congruence.
Qed.

Lemma str_in_iff sub s : str_in sub s = true ↔ ∃ a b, s = a +:+ sub +:+ b.
Proof.
  induction s as [|c s IH].
  - split.
    + intros ->%str_in_nil_r. by exists "", "".
    + intros (a & b & Hs). destruct a as [|x a]; [|by rewrite append_cons in Hs].
      destruct sub as [|y sub]; [done|]. change ("" = String y (sub +:+ b)) in Hs. done.
  - cbn [str_in]. rewrite orb_true_iff, startswith_iff, IH. split.
    + intros [[r Hr]|(a & b & Hs)].
      * by exists "", r.
      * exists (String c a), b. rewrite append_cons. by f_equal.
    + intros (a & b & Hs). destruct a as [|x a].
      * left. by exists b.
      * right. exists a, b. rewrite append_cons in Hs. by injection Hs.
Qed.

Lemma str_in_trans u t t' :
  str_in u t = true → str_in t t' = true → str_in u t' = true.
Proof.
  rewrite !str_in_iff. intros (a & b & ->) (a' & b' & ->).
  exists (a' +:+ a), (b +:+ b'). by rewrite !append_assoc.
Qed.

Lemma str_in_refl s : str_in s s = true.
Proof. apply str_in_iff. exists "", "". by rewrite append_nil_r. Qed.

Lemma str_in_app_l u a t : str_in u t = true → str_in u (a +:+ t) = true.
Proof.
  intros Hin. apply (str_in_trans _ t); [done|].
  apply str_in_iff. exists a, "". by rewrite append_nil_r.
Qed.

Lemma str_in_app_r u t b : str_in u t = true → str_in u (t +:+ b) = true.
Proof.
  intros Hin. apply (str_in_trans _ t); [done|].
  apply str_in_iff. by exists "", b.
Qed.

(** Every item of a list stands in its [join]. *)
Lemma str_in_join sep (l : list string) s : s ∈ l → str_in s (join sep l) = true.
Proof.
  induction l as [|x l IH]; [by intros ?%not_elem_of_nil|].
  intros Hs. cbn [join]. destruct l as [|y l].
  - apply list_elem_of_singleton in Hs as ->. apply str_in_refl.
  - apply elem_of_cons in Hs as [->|Hs].
    + apply str_in_app_r, str_in_refl.
    + by apply str_in_app_l, str_in_app_l, IH.
Qed.

Lemma ascii_lower_char_idemp c :
  ascii_lower_char (ascii_lower_char c) = ascii_lower_char c.
Proof. by destruct c as [[] [] [] [] [] [] [] []]. Qed.

Lemma ascii_lower_idemp s : ascii_lower (ascii_lower s) = ascii_lower s.
Proof.
  induction s as [|c s IH]; simpl; [done|].
  by rewrite ascii_lower_char_idemp, IH.
Qed.

Lemma startswith_ascii_lower p s :
  startswith p s = true → startswith (ascii_lower p) (ascii_lower s) = true.
Proof.
  revert s. induction p as [|a p IH]; intros [|b s]; simpl; try done.
  case_decide as Hab; [|done]. subst b. intros Hps.
  rewrite decide_True by done. by apply IH.
Qed.

Lemma str_in_ascii_lower sub s :
  str_in sub s = true → str_in (ascii_lower sub) (ascii_lower s) = true.
Proof.
  induction s as [|b s IH].
  - intros ->%str_in_nil_r. done.
  - cbn [str_in ascii_lower]. intros [Hp|Hin]%orb_true_iff; apply orb_true_iff.
    + left. by apply (startswith_ascii_lower _ (String b s)).
    + right. by apply IH.
Qed.

Lemma ascii_lower_laws : @StrLowerLaws ascii_lower.
Proof.
  split; unfold lower.
  - by intros [|c s].
  - intros u t Hin. rewrite <- (ascii_lower_idemp u). by apply str_in_ascii_lower.
Qed.

(** ** The skill matcher *)

Lemma raised_raised held a b : raised (raised held a) b = raised held (a + b).
Proof.
  unfold raised. repeat case_decide; try lia; try done; simpl; f_equal; lia.
Qed.

Lemma occurrences_app s l1 l2 :
  occurrences s (l1 ++ l2) = (occurrences s l1 + occurrences s l2)%nat.
Proof. unfold occurrences. by rewrite filter_app, length_app. Qed.

Section matcher_facts.
Context `{StrLower}.

Lemma hits_app text s l1 l2 :
  hits text s (l1 ++ l2) = (hits text s l1 + hits text s l2)%nat.
Proof. unfold hits. case_match; [apply occurrences_app | done]. Qed.

Lemma analyze_skill_lookup text acc skill s :
  analyze_skill text acc skill !! s = raised (acc !! s) (hits text s [skill]).
Proof.
  unfold analyze_skill, hits, increment, occurrences.
  rewrite filter_cons, filter_nil.
  destruct (decide (skill = s)) as [->|Hne].
  - destruct (str_in (lower s) text); [|done].
    by rewrite lookup_insert_eq.
  - destruct (str_in (lower skill) text).
    + rewrite lookup_insert_ne by done. by case_match.
    + by case_match.
Qed.

Lemma analyze_skills_fold_lookup text skills acc s :
  foldl (analyze_skill text) acc skills !! s
  = raised (acc !! s) (hits text s skills).
Proof.
  revert acc. induction skills as [|skill skills IH]; intros acc; simpl.
  - unfold hits, occurrences. by case_match.
  - rewrite IH, analyze_skill_lookup, raised_raised.
    by rewrite <- hits_app.
Qed.

Lemma analyze_categories_lookup text db acc s :
  foldl (analyze_category text) acc db !! s
  = raised (acc !! s) (hits text s (all_skills db)).
Proof.
  revert acc. induction db as [|entry db IH]; intros acc; simpl.
  - unfold hits, occurrences. by case_match.
  - rewrite IH. unfold analyze_category.
    rewrite analyze_skills_fold_lookup, raised_raised.
    unfold all_skills. rewrite fmap_cons. simpl. by rewrite hits_app.
Qed.

Lemma analyze_skills_lookup db text s :
  analyze_skills db text !! s = raised None (hits text s (all_skills db)).
Proof.
  unfold analyze_skills. by rewrite analyze_categories_lookup, lookup_empty.
Qed.
End matcher_facts.

(** What the code files under a skill name: the number of times the
    catalog lists that name, over all its categories, when the lowered name
    occurs in the text, and nothing otherwise. *)
Theorem analyze_skills_value `{StrLower} (skills_db : catalog) (text s : string) :
  analyze_skills skills_db text !! s
  = if str_in (lower s) text && bool_decide (listings skills_db s ≠ 0%nat)
    then Some (Z.of_nat (listings skills_db s))
    else None.
Proof.
  rewrite analyze_skills_lookup. unfold raised, hits, listings.
  destruct (str_in (lower s) text); simpl.
  - case_decide as Hz.
    + by rewrite bool_decide_false by (by intros ?).
    + by rewrite bool_decide_true.
  - done.
Qed.

(** C1: the matcher is to count a skill 0 or 1, and once when two
    categories list it.  The code does not: the built-in catalog lists
    "SQL" under Programming and under Data, and on a text that mentions it
    once the matcher files 2 under it, which the report prints as
    "SQL: 2 mentions". *)
Theorem analyze_skills_sql_twice :
  let skill_counts := @analyze_skills ascii_lower DEFAULT_SKILLS "ten years of sql" in
  skill_counts !! "SQL" = Some 2
  ∧ str_in "• SQL: 2 mentions"
           (generate_report skill_counts
              (suggest_improvements DEFAULT_SKILLS skill_counts)) = true.
Proof. split; vm_compute; reflexivity. Qed.

(** C5: a listed skill name that does not occur in the text when case is
    ignored is not a key of the result. *)
Theorem analyze_skills_absent `{StrLowerLaws} (skills_db : catalog) (text s : string) :
  s ∈ all_skills skills_db →
  occurs_caseless s text = false →
  analyze_skills skills_db text !! s = None.
Proof.
  intros _ Hnot. rewrite analyze_skills_lookup. unfold hits.
  destruct (str_in (lower s) text) eqn:Hin; [|done].
  apply lower_occurs in Hin. unfold occurs_caseless in Hnot. congruence.
Qed.

Lemma analyze_skills_absent_witness :
  "Java" ∈ all_skills DEFAULT_SKILLS ∧
  @occurs_caseless ascii_lower "Java" "I write Python" = false ∧
  @analyze_skills ascii_lower DEFAULT_SKILLS "I write Python" !! "Java" = None.
Proof.
  assert (Hlisted : "Java" ∈ all_skills DEFAULT_SKILLS)
    by (vm_compute; apply list_elem_of_In; simpl; tauto).
  split; [exact Hlisted|]. split; [reflexivity|].
  exact (@analyze_skills_absent ascii_lower ascii_lower_laws
           DEFAULT_SKILLS "I write Python" "Java" Hlisted eq_refl).
Defined.

(** C8, as the code has it: on the empty text the result is empty when no
    skill name of the catalog is the empty string. *)
Theorem analyze_skills_empty_text `{StrLowerLaws} (skills_db : catalog) :
  "" ∉ all_skills skills_db →
  analyze_skills skills_db "" = ∅.
Proof.
  intros Hno. apply map_eq. intros s.
  rewrite analyze_skills_lookup, lookup_empty. unfold hits.
  destruct (str_in (lower s) "") eqn:Hin; [|done].
  apply str_in_nil_r, lower_empty_inv in Hin. subst s.
  assert (Hnone : occurrences "" (all_skills skills_db) = 0%nat); [|by rewrite Hnone].
  unfold occurrences.
  destruct (filter (λ x, x = "") (all_skills skills_db)) as [|x l] eqn:Hf; [done|].
  exfalso. apply Hno.
  assert (Hx : x ∈ filter (λ x, x = "") (all_skills skills_db))
    by (rewrite Hf; apply list_elem_of_here).
  apply list_elem_of_filter in Hx as [-> Hx]. done.
Qed.

Lemma analyze_skills_empty_text_witness :
  ("" ∉ all_skills DEFAULT_SKILLS) ∧ @analyze_skills ascii_lower DEFAULT_SKILLS "" = ∅.
Proof.
  assert (Hno : "" ∉ all_skills DEFAULT_SKILLS).
  { intros Hin. apply list_elem_of_In in Hin. vm_compute in Hin.
    repeat (destruct Hin as [Hin|Hin]; [discriminate Hin|]). exact Hin. }
  split; [exact Hno|].
  exact (@analyze_skills_empty_text ascii_lower ascii_lower_laws DEFAULT_SKILLS Hno).
Defined.

(** C8 fails as stated: the empty string occurs in the empty text, so a
    catalog that lists it gets a key. *)
Lemma analyze_skills_empty_name :
  (@analyze_skills ascii_lower [("Misc", [""])] "") ≠ ∅.
Proof.
  intros Heq. apply (f_equal (λ m : counts, m !! "")) in Heq.
  rewrite analyze_skills_lookup, lookup_empty in Heq. discriminate Heq.
Qed.

(** ** The suggestion engine *)

Lemma has_key_dom (skill_counts : counts) s :
  has_key skill_counts s = true ↔ s ∈ dom skill_counts.
Proof. unfold has_key. by rewrite bool_decide_eq_true, elem_of_dom. Qed.

Lemma filter_agree {A} (P Q : A → Prop) `{∀ x, Decision (P x)} `{∀ x, Decision (Q x)}
    (l : list A) :
  (∀ x, x ∈ l → P x ↔ Q x) → filter P l = filter Q l.
Proof.
  induction l as [|x l IH]; intros HPQ; [done|].
  rewrite !filter_cons.
  assert (HPx : P x ↔ Q x) by (apply HPQ; left).
  rewrite IH by (intros y Hy; apply HPQ; by right).
  repeat case_decide; tauto.
Qed.

Lemma suggest_category_policy (skill_counts : counts) entry :
  suggest_category skill_counts entry = category_policy skill_counts entry.
Proof.
  destruct entry as [category skills].
  unfold suggest_category, category_policy, keyed, unkeyed.
  unfold missing_suggestion, sparse_suggestion. cbn [fst snd].
  rewrite !append_assoc.
  rewrite (list_filter_iff _ (λ s, s ∈ dom skill_counts))
    by (intros s; apply has_key_dom).
  set (found_skills := filter (λ s, s ∈ dom skill_counts) skills).
  assert (Hcand : filter (λ s, s ∉ found_skills) skills
                  = filter (λ s, s ∉ dom skill_counts) skills).
  { apply filter_agree. intros s Hs. unfold found_skills.
    rewrite list_elem_of_filter. tauto. }
  rewrite Hcand.
  by destruct found_skills as [|x [|y l]].
Qed.

Lemma foldl_append {A B} (f : B → list A) (l : list B) (acc : list A) :
  foldl (λ acc b, acc ++ f b) acc l = acc ++ concat (f <$> l).
Proof.
  revert acc. induction l as [|b l IH]; intros acc; simpl.
  - by rewrite app_nil_r.
  - by rewrite IH, app_assoc.
Qed.

Lemma suggest_improvements_concat skills_db (skill_counts : counts) :
  suggest_improvements skills_db skill_counts
  = concat (category_policy skill_counts <$> skills_db).
Proof.
  unfold suggest_improvements. rewrite foldl_append. simpl.
  f_equal. apply list_fmap_ext. intros _ entry _. apply suggest_category_policy.
Qed.

(** C2: category after category, in the order of the catalog, the engine
    emits the missing-category message, which names the first 3 skills of
    the category, when no entry of the category is a key of the counts;
    the sparse-category message, which names the first 2 entries that are
    no keys, when exactly one entry is a key; and nothing when two or more
    are.  Every skill so named stands in the message the code emits, and
    a candidate of a sparse-category message is an entry of the category
    and no key of the counts. *)
Theorem suggest_improvements_policy (skills_db : catalog) (skill_counts : counts) :
  suggest_improvements skills_db skill_counts
  = concat ((λ entry,
      match keyed skill_counts entry.2 with
      | 0%nat =>
        ["⚠️ Missing " +:+ (entry.1 +:+ " skills. Consider adding: ")
           +:+ (join ", " (take 3 entry.2) +:+ "...")]
      | 1%nat =>
        [("ℹ️ Few " +:+ entry.1)
           +:+ (" skills. Could add: "
                  +:+ join ", " (take 2 (unkeyed skill_counts entry.2)))]
      | _ => []
      end) <$> skills_db)
  ∧ (∀ entry message s,
       message ∈ suggest_category skill_counts entry →
       keyed skill_counts entry.2 = 0%nat →
       s ∈ take 3 entry.2 →
       str_in s message = true)
  ∧ (∀ entry message s,
       message ∈ suggest_category skill_counts entry →
       keyed skill_counts entry.2 = 1%nat →
       s ∈ take 2 (unkeyed skill_counts entry.2) →
       str_in s message = true ∧ s ∈ entry.2 ∧ skill_counts !! s = None).
Proof.
  split_and!.
  - apply suggest_improvements_concat.
  - intros entry message s Hmessage Hkeyed Hs.
    rewrite suggest_category_policy in Hmessage. unfold category_policy in Hmessage.
    rewrite Hkeyed in Hmessage. apply list_elem_of_singleton in Hmessage as ->.
    unfold missing_suggestion.
    by apply str_in_app_l, str_in_app_l, str_in_app_r, str_in_join.
  - intros entry message s Hmessage Hkeyed Hs.
    rewrite suggest_category_policy in Hmessage. unfold category_policy in Hmessage.
    rewrite Hkeyed in Hmessage. apply list_elem_of_singleton in Hmessage as ->.
    split.
    + unfold sparse_suggestion. by apply str_in_app_l, str_in_app_l, str_in_join.
    + apply (subseteq_take 2) in Hs. unfold unkeyed in Hs.
      apply list_elem_of_filter in Hs as [Hs Hin]. split; [done|].
      by apply not_elem_of_dom.
Qed.

(** C10: two counts with the same keys get the same suggestions. *)
Theorem suggest_improvements_keys_only (skills_db : catalog) (m1 m2 : counts) :
  dom m1 = dom m2 →
  suggest_improvements skills_db m1 = suggest_improvements skills_db m2.
Proof.
  intros Hdom. rewrite !suggest_improvements_concat. f_equal.
  apply list_fmap_ext. intros _ entry _.
  unfold category_policy, keyed, unkeyed. by rewrite Hdom.
Qed.

Lemma suggest_improvements_keys_only_witness :
  dom ({["Python" := 1]} : counts) = dom ({["Python" := 7]} : counts) ∧
  suggest_improvements DEFAULT_SKILLS {["Python" := 1]}
  = suggest_improvements DEFAULT_SKILLS {["Python" := 7]}.
Proof.
  assert (Hdom : dom ({["Python" := 1]} : counts) = dom ({["Python" := 7]} : counts))
    by (rewrite !dom_singleton_L; reflexivity).
  split; [exact Hdom|].
  exact (suggest_improvements_keys_only DEFAULT_SKILLS _ _ Hdom).
Defined.

(** ** The report formatter *)

Global Instance item_le_trans : Transitive item_le.
Proof.
  intros [s1 c1] [s2 c2] [s3 c3]. unfold item_le, key_le, report_key. simpl.
  intros [?|[? H12]] [?|[? H23]]; try (left; lia).
  right. split; [lia|]. by trans s2.
Qed.

Global Instance item_le_total : Total item_le.
Proof.
  intros [s1 c1] [s2 c2]. unfold item_le, key_le, report_key. simpl.
  destruct (Z.lt_trichotomy c1 c2) as [?|[->|?]].
  - right. left. lia.
  - destruct (String.le_total s1 s2); [left|right]; by right.
  - left. left. lia.
Qed.

Global Instance item_le_antisymm : AntiSymm (=) item_le.
Proof.
  intros [s1 c1] [s2 c2]. unfold item_le, key_le, report_key. simpl.
  intros [?|[? H12]] [?|[? H21]]; try lia.
  f_equal; [|lia]. by apply (anti_symm String.le).
Qed.

(** The order is total and antisymmetric on items, so the items have one
    ordered arrangement: whatever order the mapping yields them in and
    whatever way [sorted] proceeds, the result is [sorted_items]. *)
Lemma sorted_items_unique (skill_counts : counts) (l : list (string * Z)) :
  l ≡ₚ map_to_list skill_counts → StronglySorted item_le l →
  l = sorted_items skill_counts.
Proof.
  intros Hperm Hsorted. apply (StronglySorted_unique item_le); [done| |].
  - apply StronglySorted_merge_sort; apply _.
  - unfold sorted_items. by rewrite merge_sort_Permutation.
Qed.

Lemma item_le_report_order x y : item_le x y → report_order x y.
Proof.
  unfold item_le, key_le, report_key, report_order. simpl.
  intros [?|[? ?]]; [left; lia|right; split; [lia|done]].
Qed.

Lemma StronglySorted_weaken {A} (R1 R2 : relation A) l :
  (∀ x y, R1 x y → R2 x y) → StronglySorted R1 l → StronglySorted R2 l.
Proof.
  intros HR. induction 1 as [|x l _ IH Hx]; constructor; [done|].
  eapply Forall_impl; [exact Hx|]. intros y. apply HR.
Qed.

Lemma skill_line_rendered item : skill_line item = rendered item.
Proof.
  destruct item as [skill count]. unfold skill_line, rendered. simpl.
  do 3 f_equal. case_decide; case_bool_decide; try lia; done.
Qed.

Lemma sorted_items_ordered (skill_counts : counts) :
  StronglySorted report_order (sorted_items skill_counts).
Proof.
  apply (StronglySorted_weaken item_le); [apply item_le_report_order|].
  apply StronglySorted_merge_sort; apply _.
Qed.

(** C4: the report has one line per item of the counts, in descending
    order of count and, for equal counts, ascending order of name, each
    made of the name, the count and the word "mention", with an "s" exactly
    when the count is above 1.  (An empty mapping has no such line and gets
    the "No skills detected" line in their place.) *)
Theorem generate_report_skill_lines (skill_counts : counts) (suggestions : list string) :
  ∃ lines_of : list (string * Z),
    lines_of ≡ₚ map_to_list skill_counts
    ∧ StronglySorted report_order lines_of
    ∧ generate_report skill_counts suggestions
      = join nl ([nl +:+ "=== SKILL ANALYSIS ==="]
                 ++ (if decide (skill_counts = ∅)
                     then ["No skills detected from the database"]
                     else rendered <$> lines_of)
                 ++ closing_lines suggestions).
Proof.
  exists (sorted_items skill_counts). split_and!.
  - apply merge_sort_Permutation.
  - apply sorted_items_ordered.
  - unfold generate_report, report_lines, closing_lines. f_equal.
    assert (Hlines : skill_line <$> sorted_items skill_counts
                     = rendered <$> sorted_items skill_counts)
      by (apply list_fmap_ext; intros _ item _; apply skill_line_rendered).
    rewrite Hlines.
    destruct (decide (skill_counts = ∅)); destruct suggestions; simpl;
      rewrite <- ?app_assoc; done.
Qed.

(** C9: with no counts and no suggestions the report is the header, the
    "No skills detected" line and the congratulation, and so holds both. *)
Theorem generate_report_nothing :
  report_lines ∅ []
  = [nl +:+ "=== SKILL ANALYSIS ===";
     "No skills detected from the database";
     nl +:+ "✅ Good job! Your resume covers diverse skill categories."]
  ∧ str_in "No skills detected from the database" (generate_report ∅ []) = true
  ∧ str_in "✅ Good job! Your resume covers diverse skill categories."
           (generate_report ∅ []) = true.
Proof. split_and!; vm_compute; reflexivity. Qed.

(** ** The core on small inputs *)

Example analyze_python_golang :
  @analyze_skills ascii_lower [("Programming", ["Python"; "Go"])] "i used python and golang"
  = <["Go" := 1]> {["Python" := 1]}.
Proof. vm_compute. reflexivity. Qed.

Example suggest_nothing_found :
  suggest_improvements [("Programming", ["Python"; "Go"])] ∅
  = ["⚠️ Missing Programming skills. Consider adding: Python, Go..."].
Proof. vm_compute. reflexivity. Qed.

Example suggest_one_found :
  suggest_improvements [("Data", ["SQL"; "NoSQL"; "Spark"; "Pandas"])] {["NoSQL" := 1]}
  = ["ℹ️ Few Data skills. Could add: SQL, Spark"].
Proof. vm_compute. reflexivity. Qed.

Example report_two_skills :
  generate_report (<["SQL" := 2]> {["Go" := 1]}) []
  = nl +:+ "=== SKILL ANALYSIS ===" +:+ nl
    +:+ "• SQL: 2 mentions" +:+ nl
    +:+ "• Go: 1 mention" +:+ nl +:+ nl
    +:+ "✅ Good job! Your resume covers diverse skill categories.".
Proof. vm_compute. reflexivity. Qed.

(** ** The methods on a well-shaped catalog *)

Lemma bind_ok {A B} (a : A) (k : A → result B) : (x <- ok a;; k x) = k a.
Proof. done. Qed.

Lemma foldlM_fmap {A B C} (f : A → C → result A) (g : B → C) (h : A → B → A)
    (l : list B) (a : A) :
  (∀ a b, f a (g b) = ok (h a b)) →
  foldlM f a (g <$> l) = ok (foldl h a l).
Proof.
  intros Hstep. revert a. induction l as [|b l IH]; intros a; simpl; [done|].
  rewrite Hstep. apply IH.
Qed.

Lemma analyze_skills_dyn_catalog `{StrLower} (skills_db : catalog) (text : string) :
  analyze_skills_dyn (value_of_catalog skills_db) text
  = ok (analyze_skills skills_db text).
Proof.
  unfold analyze_skills_dyn, analyze_skills, value_of_catalog. simpl.
  apply foldlM_fmap. intros acc entry. simpl.
  unfold analyze_category. apply foldlM_fmap. intros acc' skill. done.
Qed.

Lemma found_in_strs (skill_counts : counts) (skills : list string) :
  found_in skill_counts (VStr <$> skills)
  = ok (filter (λ s, has_key skill_counts s = true) skills).
Proof.
  induction skills as [|s skills IH]; [done|].
  rewrite fmap_cons. cbn [found_in in_counts]. rewrite IH, filter_cons.
  unfold bind, result_bind, ok.
  by destruct (has_key skill_counts s).
Qed.

Lemma strs_from_strs i (l : list string) : strs_from i (VStr <$> l) = ok l.
Proof.
  revert i. induction l as [|s l IH]; intros i; simpl; [done|]. by rewrite IH.
Qed.

Lemma join_dyn_strs sep (l : list string) : join_dyn sep (VStr <$> l) = ok (join sep l).
Proof. unfold join_dyn. by rewrite strs_from_strs. Qed.

Lemma filter_not_among found_skills (skills : list string) :
  filter (λ s, not_among found_skills s = true) (VStr <$> skills)
  = VStr <$> filter (λ s, s ∉ found_skills) skills.
Proof.
  induction skills as [|s skills IH]; [done|].
  rewrite fmap_cons, !filter_cons, IH. simpl.
  case_bool_decide; repeat case_decide; done.
Qed.

Lemma suggest_category_dyn_catalog w (skill_counts : counts) (entry : string * list string) :
  suggest_category_dyn w skill_counts (entry.1, VList (VStr <$> entry.2))
  = ok (suggest_category skill_counts entry).
Proof.
  destruct entry as [category skills]. unfold suggest_category_dyn, suggest_category.
  cbn [fst snd iterate slice_to]. rewrite bind_ok, found_in_strs, bind_ok.
  case_decide.
  - by rewrite bind_ok, <- fmap_take, join_dyn_strs, bind_ok.
  - case_decide; [|done].
    by rewrite filter_not_among, <- fmap_take, join_dyn_strs, bind_ok.
Qed.

Lemma suggest_improvements_dyn_catalog w (skills_db : catalog) (skill_counts : counts) :
  suggest_improvements_dyn w (value_of_catalog skills_db) skill_counts
  = ok (suggest_improvements skills_db skill_counts).
Proof.
  unfold suggest_improvements_dyn, suggest_improvements, value_of_catalog. simpl.
  apply foldlM_fmap. intros acc entry.
  by rewrite suggest_category_dyn_catalog.
Qed.

(** ** Text extraction *)

(** C6: on a path that does not exist, [extract_text] raises
    [FileNotFoundError] with a message that names the path, having asked
    only whether the path exists: the PDF library is not called. *)
Theorem extract_text_missing `{StrLower} (w : world) (pdf_path : string) :
  path_exists w pdf_path = false →
  extract_text w pdf_path
  = (inl (Exn FileNotFoundError ("File not found: " +:+ pdf_path)), [EvExists pdf_path]).
Proof.
  intros Hmissing. unfold extract_text, os_path_exists, bind, M_bind. simpl.
  by rewrite Hmissing.
Qed.

Lemma extract_text_missing_witness :
  path_exists empty_world "cv.pdf" = false ∧
  @extract_text ascii_lower empty_world "cv.pdf"
  = (inl (Exn FileNotFoundError "File not found: cv.pdf"), [EvExists "cv.pdf"]).
Proof.
  split; [reflexivity|].
  exact (@extract_text_missing ascii_lower empty_world "cv.pdf" eq_refl).
Defined.

(** ** Loading the catalog *)





(** ** The entry point *)

(** C3: [main] is to catch every failure, print it after "Error: " and
    leave with a non-zero status, and to print the report and leave with
    status 0 otherwise.  The code does not get that far: the call that
    builds the analyzer on lines 95 to 97 opens four parentheses and
    closes three, so the statement of line 98 starts inside the call.
    Python compiles a file before it runs any of it, and rejects this
    one: no command line reaches the handler or prints a report. *)
Theorem main_call_unclosed :
  count_char "("%char (join nl analyzer_call) = 4
  ∧ count_char ")"%char (join nl analyzer_call) = 3
  ∧ open_parens analyzer_call = 1.
Proof. split_and!; vm_compute; reflexivity. Qed.

(** * Further properties *)

(** ** More on the skill matcher *)

Lemma occurrences_zero s l : occurrences s l = 0%nat ↔ s ∉ l.
Proof.
  unfold occurrences. rewrite length_zero_iff_nil. split.
  - intros Hnil Hin.
    assert (Hs : s ∈ filter (λ x, x = s) l) by (by apply list_elem_of_filter).
    rewrite Hnil in Hs. by apply not_elem_of_nil in Hs.
  - intros Hnot. destruct (filter (λ x, x = s) l) as [|x l'] eqn:Hf; [done|].
    assert (Hx : x ∈ filter (λ x, x = s) l) by (rewrite Hf; left).
    apply list_elem_of_filter in Hx as [-> Hx]. done.
Qed.

Lemma occurrences_NoDup s l : NoDup l → (occurrences s l ≤ 1)%nat.
Proof.
  unfold occurrences. induction 1 as [|x l Hx _ IH]; [simpl; lia|].
  rewrite filter_cons. case_decide as Hxs; [|done]. subst x. simpl.
  apply occurrences_zero in Hx. unfold occurrences in Hx. lia.
Qed.

Lemma raised_none_some k n : raised None k = Some n ↔ k ≠ 0%nat ∧ n = Z.of_nat k.
Proof.
  unfold raised. case_decide as Hk; simpl.
  - split; [done|by intros [? _]].
  - split; [intros [= <-]; split; [done|lia]|intros [_ ->]; f_equal; lia].
Qed.

Lemma raised_none_default k : default 0 (raised None k) = Z.of_nat k.
Proof. unfold raised. case_decide; simpl; lia. Qed.

Lemma all_skills_app db1 db2 : all_skills (db1 ++ db2) = all_skills db1 ++ all_skills db2.
Proof. unfold all_skills. by rewrite fmap_app, concat_app. Qed.

Lemma all_skills_entry (db : catalog) entry s :
  entry ∈ db → s ∈ entry.2 → s ∈ all_skills db.
Proof.
  intros He Hs. unfold all_skills.
  induction He as [entry db|entry' entry db _ IH]; rewrite fmap_cons; simpl;
    apply elem_of_app; [by left|right; by apply IH].
Qed.

(** X1: a skill name is a key of the result exactly when the catalog
    lists it and its lowered form occurs in the text. *)
Theorem analyze_skills_key_iff `{StrLower} (skills_db : catalog) (text s : string) :
  is_Some (analyze_skills skills_db text !! s)
  ↔ s ∈ all_skills skills_db ∧ str_in (lower s) text = true.
Proof.
  rewrite analyze_skills_lookup. unfold hits, is_Some.
  destruct (str_in (lower s) text).
  - split.
    + intros [n [Hk _]%raised_none_some]. split; [|done].
      destruct (decide (s ∈ all_skills skills_db)) as [|Hnot]; [done|].
      by apply occurrences_zero in Hnot.
    + intros [Hin _]. eexists. apply raised_none_some. split; [|done].
      rewrite occurrences_zero. by intros ?.
  - split; [intros [n [Hk _]%raised_none_some]; done|intros [_ ?]; done].
Qed.

(** X2: when no skill name is listed twice in the whole catalog, every
    value of the result is 1. *)
Theorem analyze_skills_once `{StrLower} (skills_db : catalog) (text s : string) (n : Z) :
  NoDup (all_skills skills_db) →
  analyze_skills skills_db text !! s = Some n →
  n = 1.
Proof.
  intros Hnodup. rewrite analyze_skills_lookup. unfold hits.
  intros [Hk ->]%raised_none_some.
  destruct (str_in (lower s) text); [|done].
  pose proof (occurrences_NoDup s _ Hnodup). lia.
Qed.

Lemma analyze_skills_once_witness :
  NoDup (all_skills [("Programming", ["Python"; "Go"])])
  ∧ @analyze_skills ascii_lower [("Programming", ["Python"; "Go"])]
      "i used python and golang" !! "Go" = Some 1
  ∧ (1 : Z) = 1.
Proof.
  assert (Hnodup : NoDup (all_skills [("Programming", ["Python"; "Go"])]))
    by (apply (bool_decide_unpack _); vm_compute; exact I).
  assert (Hgo : @analyze_skills ascii_lower [("Programming", ["Python"; "Go"])]
                  "i used python and golang" !! "Go" = Some 1)
    by (vm_compute; reflexivity).
  split; [exact Hnodup|]. split; [exact Hgo|].
  exact (@analyze_skills_once ascii_lower _ _ "Go" 1 Hnodup Hgo).
Defined.

(** X3: the result depends only on which names the catalog lists and how
    often, not on the order of the categories or on which category lists
    a name. *)
Theorem analyze_skills_permutation `{StrLower} (db db' : catalog) (text : string) :
  all_skills db ≡ₚ all_skills db' →
  analyze_skills db text = analyze_skills db' text.
Proof.
  intros Hperm. apply map_eq. intros s.
  rewrite !analyze_skills_lookup. unfold hits, occurrences.
  by rewrite Hperm.
Qed.

Lemma analyze_skills_permutation_witness :
  all_skills [("Programming", ["Python"; "Go"])]
    ≡ₚ all_skills [("Cloud", ["Go"]); ("Scripting", ["Python"])]
  ∧ @analyze_skills ascii_lower [("Programming", ["Python"; "Go"])] "python and go"
    = @analyze_skills ascii_lower [("Cloud", ["Go"]); ("Scripting", ["Python"])]
        "python and go".
Proof.
  assert (Hperm : all_skills [("Programming", ["Python"; "Go"])]
                    ≡ₚ all_skills [("Cloud", ["Go"]); ("Scripting", ["Python"])])
    by (unfold all_skills; simpl; apply perm_swap).
  split; [exact Hperm|].
  exact (@analyze_skills_permutation ascii_lower _ _ "python and go" Hperm).
Defined.

(** X4: a longer text loses nothing: what is found in a text is found,
    with the same value, in every text that contains it. *)
Theorem analyze_skills_monotone `{StrLower} (skills_db : catalog)
    (text text' s : string) (n : Z) :
  str_in text text' = true →
  analyze_skills skills_db text !! s = Some n →
  analyze_skills skills_db text' !! s = Some n.
Proof.
  intros Hsub. rewrite !analyze_skills_lookup. unfold hits.
  destruct (str_in (lower s) text) eqn:Hin.
  - by rewrite (str_in_trans _ _ _ Hin Hsub).
  - by intros [? _]%raised_none_some.
Qed.

Lemma analyze_skills_monotone_witness :
  str_in "python" "python and sql" = true
  ∧ @analyze_skills ascii_lower DEFAULT_SKILLS "python" !! "Python" = Some 1
  ∧ @analyze_skills ascii_lower DEFAULT_SKILLS "python and sql" !! "Python" = Some 1.
Proof.
  assert (Hfound : @analyze_skills ascii_lower DEFAULT_SKILLS "python" !! "Python" = Some 1)
    by (vm_compute; reflexivity).
  split; [reflexivity|]. split; [exact Hfound|].
  exact (@analyze_skills_monotone ascii_lower DEFAULT_SKILLS "python" "python and sql"
           "Python" 1 eq_refl Hfound).
Defined.

(** X17: the matcher looks at no word boundary: a listed name is found
    wherever its lowered form stands in the text, whatever comes right
    before and right after it. *)
Theorem analyze_skills_inside_word `{StrLower} (skills_db : catalog)
    (before after s : string) :
  s ∈ all_skills skills_db →
  is_Some (analyze_skills skills_db (before +:+ lower s +:+ after) !! s).
Proof.
  intros Hlisted. rewrite analyze_skills_lookup. unfold hits.
  assert (Hin : str_in (lower s) (before +:+ lower s +:+ after) = true)
    by (apply str_in_iff; by exists before, after).
  rewrite Hin. eexists. apply raised_none_some. split; [|done].
  rewrite occurrences_zero. by intros ?.
Qed.

Lemma analyze_skills_inside_word_witness :
  "Go" ∈ all_skills DEFAULT_SKILLS
  ∧ is_Some (@analyze_skills ascii_lower DEFAULT_SKILLS ("i like " +:+ "go" +:+ "lang") !! "Go").
Proof.
  assert (Hlisted : "Go" ∈ all_skills DEFAULT_SKILLS)
    by (vm_compute; apply list_elem_of_In; simpl; tauto).
  split; [exact Hlisted|].
  exact (@analyze_skills_inside_word ascii_lower DEFAULT_SKILLS "i like " "lang" "Go"
           Hlisted).
Defined.

(** X5: putting two catalogs one after the other adds their counts (a
    name that is no key counting for 0). *)
Theorem analyze_skills_app `{StrLower} (db1 db2 : catalog) (text s : string) :
  default 0 (analyze_skills (db1 ++ db2) text !! s)
  = default 0 (analyze_skills db1 text !! s) + default 0 (analyze_skills db2 text !! s).
Proof.
  rewrite !analyze_skills_lookup, !raised_none_default, all_skills_app, hits_app. lia.
Qed.

(** ** More on the suggestion engine *)

Lemma category_policy_length (m : counts) entry :
  length (category_policy m entry) = if decide (keyed m entry.2 < 2)%nat then 1%nat else 0%nat.
Proof.
  unfold category_policy. by destruct (keyed m entry.2) as [|[|k]].
Qed.

Lemma category_policy_nil (m : counts) entry :
  category_policy m entry = [] ↔ (2 ≤ keyed m entry.2)%nat.
Proof.
  rewrite <- length_zero_iff_nil, category_policy_length. case_decide; lia.
Qed.

Lemma filter_length_mono {A} (P Q : A → Prop) `{∀ x, Decision (P x)} `{∀ x, Decision (Q x)}
    (l : list A) :
  (∀ x, P x → Q x) → (length (filter P l) ≤ length (filter Q l))%nat.
Proof.
  intros HPQ. induction l as [|x l IH]; [done|].
  rewrite !filter_cons. repeat case_decide; simpl; try lia. naive_solver.
Qed.

Lemma keyed_mono (m1 m2 : counts) skills :
  dom m1 ⊆ dom m2 → (keyed m1 skills ≤ keyed m2 skills)%nat.
Proof. intros Hsub. unfold keyed. apply filter_length_mono. set_solver. Qed.

(** X6: a category gets at most one suggestion: there are never more
    suggestions than categories. *)
Theorem suggest_improvements_length (skills_db : catalog) (skill_counts : counts) :
  (length (suggest_improvements skills_db skill_counts) ≤ length skills_db)%nat.
Proof.
  rewrite suggest_improvements_concat.
  induction skills_db as [|entry db IH]; [done|].
  rewrite fmap_cons. simpl. rewrite length_app, category_policy_length.
  case_decide; lia.
Qed.

(** X7: there is no suggestion at all exactly when every category has at
    least two entries that are keys of the counts. *)
Theorem suggest_improvements_nil (skills_db : catalog) (skill_counts : counts) :
  suggest_improvements skills_db skill_counts = []
  ↔ Forall (λ entry, (2 ≤ keyed skill_counts entry.2)%nat) skills_db.
Proof.
  rewrite suggest_improvements_concat, concat_nil_Forall, Forall_fmap.
  apply Forall_iff. intros entry. apply category_policy_nil.
Qed.

(** X8: with no counts at all, every category of the catalog gets the
    missing-category message, in the order of the catalog. *)
Theorem suggest_improvements_no_counts (skills_db : catalog) :
  suggest_improvements skills_db ∅
  = (λ entry, "⚠️ Missing " +:+ (entry.1 +:+ " skills. Consider adding: ")
                +:+ (join ", " (take 3 entry.2) +:+ "...")) <$> skills_db.
Proof.
  rewrite suggest_improvements_concat.
  induction skills_db as [|entry db IH]; [done|].
  rewrite !fmap_cons. simpl. rewrite IH. f_equal.
  unfold category_policy, keyed.
  assert (Hnone : filter (λ s, s ∈ dom (∅ : counts)) entry.2 = []); [|by rewrite Hnone].
  induction entry.2 as [|s l IHl]; [done|].
  rewrite filter_cons, IHl. rewrite decide_False; [done|]. set_solver.
Qed.

(** X9: finding more never adds suggestions: when the keys of one counts
    mapping are among the keys of another, the other gets no more
    suggestions. *)
Theorem suggest_improvements_antitone (skills_db : catalog) (m1 m2 : counts) :
  dom m1 ⊆ dom m2 →
  (length (suggest_improvements skills_db m2)
   ≤ length (suggest_improvements skills_db m1))%nat.
Proof.
  intros Hsub. rewrite !suggest_improvements_concat.
  induction skills_db as [|entry db IH]; [done|].
  rewrite !fmap_cons. simpl. rewrite !length_app, !category_policy_length.
  pose proof (keyed_mono m1 m2 entry.2 Hsub).
  repeat case_decide; lia.
Qed.

Lemma suggest_improvements_antitone_witness :
  dom (∅ : counts) ⊆ dom ({["Python" := 1]} : counts)
  ∧ (length (suggest_improvements DEFAULT_SKILLS {["Python" := 1%Z]})
     ≤ length (suggest_improvements DEFAULT_SKILLS ∅))%nat.
Proof.
  assert (Hsub : dom (∅ : counts) ⊆ dom ({["Python" := 1]} : counts))
    by (rewrite dom_empty_L; apply empty_subseteq).
  split; [exact Hsub|].
  exact (suggest_improvements_antitone DEFAULT_SKILLS ∅ {["Python" := 1]} Hsub).
Defined.

(** X10: the suggestions for a catalog made of two parts are those of the
    first part followed by those of the second: what a category gets does
    not depend on the other categories. *)
Theorem suggest_improvements_app (db1 db2 : catalog) (skill_counts : counts) :
  suggest_improvements (db1 ++ db2) skill_counts
  = suggest_improvements db1 skill_counts ++ suggest_improvements db2 skill_counts.
Proof. by rewrite !suggest_improvements_concat, fmap_app, concat_app. Qed.

(** ** The matcher followed by the suggestion engine *)

Lemma analyze_skills_dom `{StrLower} (skills_db : catalog) (text s : string) :
  s ∈ all_skills skills_db →
  s ∈ dom (analyze_skills skills_db text) ↔ str_in (lower s) text = true.
Proof.
  intros Hlisted. rewrite elem_of_dom, analyze_skills_lookup. unfold hits, is_Some.
  destruct (str_in (lower s) text).
  - split; [done|]. intros _. eexists. apply raised_none_some. split; [|done].
    rewrite occurrences_zero. by intros ?.
  - split; [|done]. by intros [n [Hk _]%raised_none_some].
Qed.

(** X11: on the counts the matcher gives for a text, the suggestions can
    be read off the text: a category gets the missing-category message
    when the lowered name of none of its entries occurs in the text, the
    sparse-category message, with its first 2 entries that do not occur,
    when exactly one entry occurs, and nothing otherwise.  How often a
    name is counted plays no part. *)
Theorem suggest_improvements_of_text `{StrLower} (skills_db : catalog) (text : string) :
  suggest_improvements skills_db (analyze_skills skills_db text)
  = concat (text_policy text <$> skills_db).
Proof.
  rewrite suggest_improvements_concat. f_equal.
  apply list_fmap_ext. intros i entry Hentry.
  apply list_elem_of_lookup_2 in Hentry.
  unfold category_policy, text_policy, keyed, unkeyed.
  rewrite (filter_agree (λ s, s ∈ dom (analyze_skills skills_db text))
             (λ s, str_in (lower s) text = true) entry.2)
    by (intros s Hs; apply analyze_skills_dom; by apply (all_skills_entry _ entry)).
  rewrite (filter_agree (λ s, s ∉ dom (analyze_skills skills_db text))
             (λ s, str_in (lower s) text = false) entry.2); [done|].
  intros s Hs. rewrite analyze_skills_dom by (by apply (all_skills_entry _ entry)).
  apply not_true_iff_false.
Qed.

(** ** More on the report *)

(** X12: when something was counted, the line after the header is that of
    an item of the counts with the highest count and, among the names
    with that count, the least name: its name, its count and "mention",
    with an "s" when the count is above 1. *)
Theorem report_top_line (skill_counts : counts) (suggestions : list string) :
  skill_counts ≠ ∅ →
  ∃ top rest,
    report_lines skill_counts suggestions
    = (nl +:+ "=== SKILL ANALYSIS ===") :: rendered top :: rest
    ∧ skill_counts !! top.1 = Some top.2
    ∧ ∀ s n, skill_counts !! s = Some n →
             n < top.2 ∨ (n = top.2 ∧ String.le top.1 s).
Proof.
  intros Hne.
  pose proof (sorted_items_ordered skill_counts) as Hsorted.
  assert (Hperm : sorted_items skill_counts ≡ₚ map_to_list skill_counts)
    by apply merge_sort_Permutation.
  unfold report_lines. destruct (decide (skill_counts = ∅)) as [|_]; [done|].
  destruct (sorted_items skill_counts) as [|top items].
  { symmetry in Hperm. apply Permutation_nil_r, map_to_list_empty_iff in Hperm. done. }
  apply StronglySorted_cons in Hsorted as [Htop _].
  exists top. rewrite fmap_cons, skill_line_rendered.
  destruct top as [name count]. cbn [fst snd].
  destruct (decide (suggestions = [])); eexists; (split; [simpl; reflexivity|]).
  all: split;
    [apply elem_of_map_to_list; rewrite <- Hperm; left|].
  all: intros s' n' Hsn; apply elem_of_map_to_list in Hsn; rewrite <- Hperm in Hsn;
    apply elem_of_cons in Hsn as [[= -> ->]|Hin];
    [right; split; [done|reflexivity]|].
  all: rewrite Forall_forall in Htop; destruct (Htop _ Hin) as [?|[? ?]];
    [by left|right; by split].
Qed.

Lemma report_top_line_witness :
  (<["SQL" := 2]> (<["Python" := 2]> {["Go" := 1]}) : counts) ≠ ∅
  ∧ ∃ top rest,
      report_lines (<["SQL" := 2]> (<["Python" := 2]> {["Go" := 1]})) []
      = (nl +:+ "=== SKILL ANALYSIS ===") :: rendered top :: rest
      ∧ (<["SQL" := 2]> (<["Python" := 2]> {["Go" := 1]}) : counts) !! top.1 = Some top.2
      ∧ ∀ s n, (<["SQL" := 2]> (<["Python" := 2]> {["Go" := 1]}) : counts) !! s = Some n →
               n < top.2 ∨ (n = top.2 ∧ String.le top.1 s).
Proof.
  assert (Hne : (<["SQL" := 2]> (<["Python" := 2]> {["Go" := 1]}) : counts) ≠ ∅)
    by (intros Heq; apply (f_equal (λ m : counts, m !! "Go")) in Heq;
        vm_compute in Heq; discriminate Heq).
  split; [exact Hne|].
  exact (report_top_line (<["SQL" := 2]> (<["Python" := 2]> {["Go" := 1]})) [] Hne).
Defined.

(** On that mapping: of the two names counted twice, "Python" comes
    before "SQL", and "Go", counted once, comes last. *)
Example report_top_line_tie :
  report_lines (<["SQL" := 2]> (<["Python" := 2]> {["Go" := 1]})) []
  = [nl +:+ "=== SKILL ANALYSIS ===";
     "• Python: 2 mentions"; "• SQL: 2 mentions"; "• Go: 1 mention";
     nl +:+ "✅ Good job! Your resume covers diverse skill categories."].
Proof. vm_compute. reflexivity. Qed.

(** ** The matcher on a catalog of another shape *)

(** X16: a category whose value is a string instead of a list of strings
    raises nothing: [analyze_skills] takes each character of the string
    for a skill name. *)
Theorem analyze_skills_dyn_strings `{StrLower} (db : list (string * string))
    (text : string) :
  analyze_skills_dyn (VDict ((λ entry, (entry.1, VStr entry.2)) <$> db)) text
  = ok (analyze_skills ((λ entry, (entry.1, code_points entry.2)) <$> db) text).
Proof.
  unfold analyze_skills_dyn, analyze_skills. cbn [items]. rewrite bind_ok.
  rewrite foldl_fmap. apply foldlM_fmap. intros acc entry.
  cbn [snd iterate]. rewrite bind_ok.
  unfold analyze_category. cbn [snd]. apply foldlM_fmap. intros acc' skill. done.
Qed.

(** ** The constructor and the methods together *)

(** X13: on a catalog of the annotated shape, a mapping from category to
    list of skill names, neither [analyze_skills] nor
    [suggest_improvements] raises, and each returns what it computes from
    the categories and names. *)
Theorem methods_on_catalog `{StrLower} (w : world) (skills_db : catalog)
    (text : string) (skill_counts : counts) :
  analyze_skills_dyn (value_of_catalog skills_db) text
  = inr (analyze_skills skills_db text)
  ∧ suggest_improvements_dyn w (value_of_catalog skills_db) skill_counts
    = inr (suggest_improvements skills_db skill_counts).
Proof.
  split; [apply analyze_skills_dyn_catalog|apply suggest_improvements_dyn_catalog].
Qed.

(** X15: a truthy [skills_db] that is no mapping (a list, a number, a
    string, [True]) is kept by the constructor without complaint; the
    failure comes from the methods, which both raise the [AttributeError]
    of the missing [items], naming the type of the object. *)
Theorem methods_on_no_mapping `{StrLower} (w : world) (document : value) :
  truthy document = true →
  (∀ d, document ≠ VDict d) →
  init w document = (inr document, [])
  ∧ (∀ text, analyze_skills_dyn document text = inl (no_attribute document "items"))
  ∧ (∀ skill_counts,
       suggest_improvements_dyn w document skill_counts
       = inl (no_attribute document "items")).
Proof.
  intros Htruthy Hshape. split_and!.
  - unfold init. by rewrite Htruthy.
  - intros text. unfold analyze_skills_dyn.
    destruct document; try done. by destruct (Hshape d).
  - intros skill_counts. unfold suggest_improvements_dyn.
    destruct document; try done. by destruct (Hshape d).
Qed.

Lemma methods_on_no_mapping_witness :
  truthy (VStr "Python, Go") = true
  ∧ (∀ d, VStr "Python, Go" ≠ VDict d)
  ∧ init empty_world (VStr "Python, Go") = (inr (VStr "Python, Go"), [])
  ∧ (∀ text, @analyze_skills_dyn ascii_lower (VStr "Python, Go") text
             = inl (Exn AttributeError "'str' object has no attribute 'items'"))
  ∧ (∀ skill_counts,
       suggest_improvements_dyn empty_world (VStr "Python, Go") skill_counts
       = inl (Exn AttributeError "'str' object has no attribute 'items'")).
Proof.
  assert (Hshape : ∀ d, VStr "Python, Go" ≠ VDict d) by discriminate.
  split; [reflexivity|]. split; [exact Hshape|].
  exact (@methods_on_no_mapping ascii_lower empty_world (VStr "Python, Go")
           eq_refl Hshape).
Defined.


